(** * StandardRelayerAPIOrderProvider

    A shallow embedding of
    [packages/asset-swapper/src/order_providers/standard_relayer_api_order_provider.ts]
    together with the properties its specification states.

    Layout: numbers and JavaScript values first, then the external
    collaborators as type classes, the provider itself, and finally the
    theorems. *)

From Stdlib Require Import ZArith QArith Qround Ascii String Lia.
From stdpp Require Import base option list strings gmap.

Local Open Scope Z_scope.

(** ** BigNumber *)

(** A [BigNumber] of bignumber.js is a finite, exactly represented decimal or
    one of the three non-finite values.  Finite values are kept as rationals,
    so that the quotient taken in the fill-amount computation is exact.  The
    sign of zero is not represented. *)
Inductive BigNumber :=
| BN (q : Q)
| BN_Infinity (negative : bool)
| BN_NaN.

Definition Qnegb (q : Q) : bool := (Qnum q <? 0)%Z.
Definition Qzerob (q : Q) : bool := (Qnum q =? 0)%Z.

(** [x.multipliedBy(y)] *)
Definition multipliedBy (x y : BigNumber) : BigNumber :=
  match x, y with
  | BN_NaN, _ | _, BN_NaN => BN_NaN
  | BN a, BN b => BN (Qred (a * b))
  | BN_Infinity n, BN b | BN b, BN_Infinity n =>
      if Qzerob b then BN_NaN else BN_Infinity (xorb n (Qnegb b))
  | BN_Infinity n, BN_Infinity m => BN_Infinity (xorb n m)
  end.

(** [x.div(y)], without the rounding to [DECIMAL_PLACES]: the quotient of two
    finite values is the exact rational. *)
Definition div (x y : BigNumber) : BigNumber :=
  match x, y with
  | BN_NaN, _ | _, BN_NaN => BN_NaN
  | BN_Infinity _, BN_Infinity _ => BN_NaN
  | BN_Infinity n, BN b => BN_Infinity (xorb n (Qnegb b))
  | BN _, BN_Infinity _ => BN 0
  | BN a, BN b =>
      if Qzerob b
      then (if Qzerob a then BN_NaN else BN_Infinity (Qnegb a))
      else BN (Qred (a / b))
  end.

(** [x.integerValue(BigNumber.ROUND_FLOOR)] *)
Definition integerValue_ROUND_FLOOR (x : BigNumber) : BigNumber :=
  match x with
  | BN q => BN (inject_Z (Qfloor q))
  | other => other
  end.

(** *** Decimal literals

    [new BigNumber(str)] first tests [str] against its pattern for decimal
    literals: an optional minus sign; then either one or more digits with an
    optional point and further digits, or a point and one or more digits;
    then an optional exponent.  The part of that grammar without an exponent
    is read here; every other string is left to the library (see
    [parseNumeric] below). *)

Definition digit_of_ascii (c : ascii) : option Z :=
  let n := N_of_ascii c in
  if ((48 <=? n) && (n <=? 57))%N then Some (Z.of_N (n - 48)) else None.

(** The value of a run of digits appended to [acc]; [None] when a character
    is not a digit. *)
Fixpoint read_digits (s : string) (acc : Z) : option Z :=
  match s with
  | EmptyString => Some acc
  | String c s' =>
      match digit_of_ascii c with
      | Some d => read_digits s' (10 * acc + d)
      | None => None
      end
  end.

(** [str.indexOf('.')]: the text before the first point and, if there is a
    point, the text after it. *)
Fixpoint split_point (s : string) : string * option string :=
  match s with
  | EmptyString => (EmptyString, None)
  | String c s' =>
      if Ascii.eqb c "."
      then (EmptyString, Some s')
      else let '(i, f) := split_point s' in (String c i, f)
  end.

(** Digits with an optional point and further digits, or a point and digits. *)
Definition read_unsigned (s : string) : option Q :=
  match split_point s with
  | (EmptyString, None) => None
  | (i, None) => n ← read_digits i 0; Some (inject_Z n)
  | (EmptyString, Some EmptyString) => None
  | (i, Some f) =>
      n ← read_digits (i +:+ f) 0;
      Some (Qred (Qmake n (Z.to_pos (10 ^ Z.of_nat (String.length f)))))
  end.

(** An unsigned literal with an optional minus sign in front. *)
Definition read_decimal (s : string) : option Q :=
  match s with
  | String "-" s' => q ← read_unsigned s'; Some (Qred (- q))
  | _ => read_unsigned s
  end.

(** bignumber.js keeps exponents within [MAX_EXP] of zero; a literal of at most that
    many characters cannot leave the range. *)
Definition MAX_EXP : N := 10000000.

(** ** JavaScript numbers *)

(** A [number] as the provider handles it: an integer (network ids and page
    sizes) or one of the values that are not finite. *)
Inductive number :=
| Num (z : Z)
| NaN
| Infinity (negative : bool).

(** [_.isFinite(value)] *)
Definition isFinite (n : number) : bool :=
  match n with
  | Num _ => true
  | _ => false
  end.

(** ** Declarations the provider imports *)

(** What [@0x/types], [../types] and [@0x/connect] declare and the provider
    leaves untouched: the fields of a signed order besides its two amounts,
    the members of the [SwapQuoterError] enum, and whatever an [HttpClient]
    call may throw. *)
Class ExternalTypes := {
  SignedOrderFields : Type;
  SwapQuoterError : Type;
  StandardRelayerApiError : SwapQuoterError;
  TransportCause : Type;
}.

(** [{ baseAssetData, quoteAssetData }] *)
Record OrderbookRequest := {
  baseAssetData : string;
  quoteAssetData : string;
}.

(** [{ networkId }] *)
Record RequestOpts := { opts_networkId : number }.

(** The object [{...requestOpts, ...assetPairsRequest}] handed to
    [getAssetPairsAsync]: the keys [networkId], [perPage] and [assetDataA]. *)
Record AssetPairsRequest := {
  request_networkId : number;
  request_perPage : number;
  request_assetDataA : string;
}.

Record OrderProviderRequest := {
  makerAssetData : string;
  takerAssetData : string;
}.

(** An [Asset] of an asset-pairs item; only [assetData] is read. *)
Record Asset := { assetData : string }.

Record AssetPairsItem := { assetDataA : Asset; assetDataB : Asset }.

Record PaginatedCollection (T : Type) := {
  total : number;
  page : number;
  perPage : number;
  records : list T;
}.
Arguments total {T} _.
Arguments page {T} _.
Arguments perPage {T} _.
Arguments records {T} _.

Definition AssetPairsResponse := PaginatedCollection AssetPairsItem.

(** An [HttpClient] is known by the url it was created with. *)
Record HttpClient := { client_url : string }.

(** What the provider does to the outside world, in the order it happens. *)
Inductive Event :=
| NewHttpClient (url : string)
| GetOrderbook (url : string) (request : OrderbookRequest) (opts : RequestOpts)
| GetAssetPairs (url : string) (request : AssetPairsRequest).

Section Types.
Context `{ExternalTypes}.

Record SignedOrder := {
  makerAssetAmount : BigNumber;
  takerAssetAmount : BigNumber;
  orderFields : SignedOrderFields;
}.

(** [metaData] is an [object]; the one key the provider reads is cast to
    [string | undefined], and values are strings here accordingly. *)
Record APIOrder := {
  order : SignedOrder;
  metaData : gmap string string;
}.

(** [{...order, remainingFillableMakerAssetAmount}]: the order's own fields,
    copied, and the added one. *)
Record SignedOrderWithRemainingFillableMakerAssetAmount := {
  signedOrder : SignedOrder;
  remainingFillableMakerAssetAmount : BigNumber;
}.

Record OrderbookResponse := {
  bids : PaginatedCollection APIOrder;
  asks : PaginatedCollection APIOrder;
}.

Record OrderProviderResponse := {
  orders : list SignedOrderWithRemainingFillableMakerAssetAmount;
}.

(** Values a [throw] can carry. *)
Inductive Exception :=
| Error (message : SwapQuoterError)
| AssertionError (variableName : string)
| TransportError (cause : TransportCause).

Inductive Outcome (A : Type) :=
| Return (a : A)
| Throw (e : Exception).

(** A computation that may throw and that appends to the trace of events. *)
Definition Js (A : Type) : Type := list Event → Outcome A * list Event.

End Types.

Arguments Return {_ _} _.
Arguments Throw {_ _} _.

(** The functions the provider calls and the constant it reads, none of which
    it defines: the fallback of the [BigNumber] constructor for strings that
    are not plain decimal literals, the predicates behind the [assert]
    helpers, [constants.DEFAULT_PER_PAGE], and the answers of the relayer
    behind [HttpClient], which may depend on everything that happened
    before. *)
Class Collaborators `{ExternalTypes} := {
  parseNumeric : string → BigNumber;
  isWebUri : string → bool;
  isValidOrderProviderRequest : OrderProviderRequest → bool;
  DEFAULT_PER_PAGE : number;
  orderbook_reply :
    list Event → string → OrderbookRequest → RequestOpts →
    TransportCause + OrderbookResponse;
  assetPairs_reply :
    list Event → string → AssetPairsRequest →
    TransportCause + AssetPairsResponse;
}.

Section Monad.
Context `{ExternalTypes}.

#[global] Instance Js_ret : MRet Js := λ A a tr, (Return a, tr).

#[global] Instance Js_bind : MBind Js := λ A B f m tr,
  match m tr with
  | (Return a, tr') => f a tr'
  | (Throw e, tr') => (Throw e, tr')
  end.

Definition throw {A} (e : Exception) : Js A := λ tr, (Throw e, tr).

(** [try { body } catch (err) { handler }] *)
Definition try_catch {A} (body : Js A) (handler : Exception → Js A) : Js A :=
  λ tr,
    match body tr with
    | (Return a, tr') => (Return a, tr')
    | (Throw err, tr') => handler err tr'
    end.

End Monad.

(** ** The provider *)

Section Provider.
Context `{Collaborators}.

(** [new BigNumber(str)] for a string: a plain decimal literal denotes its
    value, anything else is the library's business. *)
Definition BigNumber_new (str : string) : BigNumber :=
  match
    (if (N.of_nat (String.length str) <=? MAX_EXP)%N
     then read_decimal str else None)
  with
  | Some q => BN q
  | None => parseNumeric str
  end.

(** Modelled from the spec: [orderCalculationUtils.getMakerFillAmount] of
    [@0x/order-utils], which is not among the sources.  The spec gives
    [remainingMaker = floor(remainingTaker * order.makerAssetAmount /
    order.takerAssetAmount)], rounding down. *)
Definition getMakerFillAmount (order : SignedOrder) (takerFillAmount : BigNumber)
  : BigNumber :=
  integerValue_ROUND_FLOOR
    (div (multipliedBy takerFillAmount (makerAssetAmount order))
         (takerAssetAmount order)).

(** [_.get(object, path)] for a one-key path. *)
Definition _get (object : gmap string string) (path : string) : option string :=
  object !! path.

(** Given an array of APIOrder objects from a standard relayer api, return an
    array of SignedOrderWithRemainingFillableMakerAssetAmounts.  The
    conditional is JavaScript's: [undefined] and the empty string are falsy,
    every other string is truthy. *)
Definition _getSignedOrderWithRemainingFillableMakerAssetAmountFromApi
    (apiOrders : list APIOrder)
  : list SignedOrderWithRemainingFillableMakerAssetAmount :=
  (λ apiOrder,
     let order := order apiOrder in
     let metaData := metaData apiOrder in
     let metaDataRemainingTakerAssetAmount :=
       _get metaData "remainingTakerAssetAmount" in
     let remainingFillableTakerAssetAmount :=
       match metaDataRemainingTakerAssetAmount with
       | Some str =>
           if String.eqb str "" then takerAssetAmount order
           else BigNumber_new str
       | None => takerAssetAmount order
       end in
     let remainingFillableMakerAssetAmount :=
       getMakerFillAmount order remainingFillableTakerAssetAmount in
     let newOrder :=
       {| signedOrder := order;
          remainingFillableMakerAssetAmount :=
            remainingFillableMakerAssetAmount |} in
     newOrder) <$> apiOrders.

(** *** Collaborators with effects *)

(** Modelled from the spec: the helpers of [../utils/assert], which are not
    among the sources.  Each one throws when its check fails (the spec's
    [InvalidConfiguration] and [InvalidRequest]) and does nothing else. *)
Definition assert_that (variableName : string) (condition : bool) : Js unit :=
  if condition then mret () else throw (AssertionError variableName).

Definition assert_isWebUri (variableName value : string) : Js unit :=
  assert_that variableName (isWebUri value).

Definition assert_isNumber (variableName : string) (value : number) : Js unit :=
  assert_that variableName (isFinite value).

Definition assert_isValidOrderProviderRequest
    (variableName : string) (value : OrderProviderRequest) : Js unit :=
  assert_that variableName (isValidOrderProviderRequest value).

(** [new HttpClient(url)] *)
Definition HttpClient_new (url : string) : Js HttpClient :=
  λ tr, (Return {| client_url := url |}, tr ++ [NewHttpClient url]).

(** [client.getOrderbookAsync(request, requestOpts)]: one request goes out,
    and the relayer's answer is returned or its failure thrown. *)
Definition getOrderbookAsync
    (client : HttpClient) (request : OrderbookRequest) (requestOpts : RequestOpts)
  : Js OrderbookResponse :=
  λ tr,
    let tr' := tr ++ [GetOrderbook (client_url client) request requestOpts] in
    match orderbook_reply tr (client_url client) request requestOpts with
    | inr response => (Return response, tr')
    | inl cause => (Throw (TransportError cause), tr')
    end.

(** [client.getAssetPairsAsync(requestOpts)] *)
Definition getAssetPairsAsync (client : HttpClient) (requestOpts : AssetPairsRequest)
  : Js AssetPairsResponse :=
  λ tr,
    let tr' := tr ++ [GetAssetPairs (client_url client) requestOpts] in
    match assetPairs_reply tr (client_url client) requestOpts with
    | inr response => (Return response, tr')
    | inl cause => (Throw (TransportError cause), tr')
    end.

(** *** The class *)

Record StandardRelayerAPIOrderProvider := {
  apiUrl : string;
  networkId : number;
  _sraClient : HttpClient;
}.

(** Instantiates a new StandardRelayerAPIOrderProvider instance. *)
Definition constructor (apiUrl : string) (networkId : number)
  : Js StandardRelayerAPIOrderProvider :=
  assert_isWebUri "apiUrl" apiUrl;;
  assert_isNumber "networkId" networkId;;
  sraClient ← HttpClient_new apiUrl;
  mret {| apiUrl := apiUrl; networkId := networkId; _sraClient := sraClient |}.

(** Given an object that conforms to OrderProviderRequest, return the
    corresponding OrderProviderResponse that satisfies the request. *)
Definition getOrdersAsync
    (this : StandardRelayerAPIOrderProvider)
    (orderProviderRequest : OrderProviderRequest)
  : Js OrderProviderResponse :=
  assert_isValidOrderProviderRequest "orderProviderRequest" orderProviderRequest;;
  let orderbookRequest :=
    {| baseAssetData := makerAssetData orderProviderRequest;
       quoteAssetData := takerAssetData orderProviderRequest |} in
  let requestOpts := {| opts_networkId := networkId this |} in
  orderbook ←
    try_catch
      (getOrderbookAsync (_sraClient this) orderbookRequest requestOpts)
      (λ err, throw (Error StandardRelayerApiError));
  let apiOrders := records (asks orderbook) in
  let orders :=
    _getSignedOrderWithRemainingFillableMakerAssetAmountFromApi apiOrders in
  mret {| orders := orders |}.

(** Given a taker asset data string, return all available paired maker asset
    data strings. *)
Definition getAvailableMakerAssetDatasAsync
    (this : StandardRelayerAPIOrderProvider) (takerAssetData : string)
  : Js (list string) :=
  (* Return a maximum of 1000 asset datas *)
  let maxPerPage := Num 1000 in
  let fullRequest :=
    {| request_networkId := networkId this;
       request_perPage := maxPerPage;
       request_assetDataA := takerAssetData |} in
  response ←
    try_catch
      (getAssetPairsAsync (_sraClient this) fullRequest)
      (λ err, throw (Error StandardRelayerApiError));
  mret
    ((λ item,
        if String.eqb (assetData (assetDataA item)) takerAssetData
        then assetData (assetDataB item)
        else assetData (assetDataA item)) <$> records response).

(** Given a maker asset data string, return all available paired taker asset
    data strings. *)
Definition getAvailableTakerAssetDatasAsync
    (this : StandardRelayerAPIOrderProvider) (makerAssetData : string)
  : Js (list string) :=
  let fullRequest :=
    {| request_networkId := networkId this;
       request_perPage := DEFAULT_PER_PAGE;
       request_assetDataA := makerAssetData |} in
  response ←
    try_catch
      (getAssetPairsAsync (_sraClient this) fullRequest)
      (λ err, throw (Error StandardRelayerApiError));
  mret
    ((λ item,
        if String.eqb (assetData (assetDataA item)) makerAssetData
        then assetData (assetDataB item)
        else assetData (assetDataA item)) <$> records response).

End Provider.

(** ** Well-formed records *)

Definition nonNegative (x : BigNumber) : bool :=
  match x with
  | BN q => (0 <=? Qnum q)%Z
  | _ => false
  end.

Definition positive (x : BigNumber) : bool :=
  match x with
  | BN q => (0 <? Qnum q)%Z
  | _ => false
  end.

Section WellFormed.
Context `{Collaborators}.

(** A record is well formed when its order offers a non-negative maker
    amount for a positive taker amount, and the remaining taker amount in its
    metadata, if there is a non-empty one, reads as a non-negative number. *)
Definition wellFormed (apiOrder : APIOrder) : bool :=
  nonNegative (makerAssetAmount (order apiOrder))
  && positive (takerAssetAmount (order apiOrder))
  && match metaData apiOrder !! "remainingTakerAssetAmount" with
     | Some str => String.eqb str "" || nonNegative (BigNumber_new str)
     | None => true
     end.

End WellFormed.

(** ** A concrete relayer

    One instance of the external declarations, used to run the provider: a
    relayer that is reachable at one url and fails at every other. *)

Module Sample.

Inductive Cause := Timeout | Status500 | MalformedJson.

Definition types : ExternalTypes :=
  {| SignedOrderFields := unit;
     SwapQuoterError := string;
     StandardRelayerApiError := "STANDARD_RELAYER_API_ERROR";
     TransportCause := Cause |}.

#[local] Existing Instance types.

Definition mkOrder (maker taker : Z) : SignedOrder :=
  {| makerAssetAmount := BN (inject_Z maker);
     takerAssetAmount := BN (inject_Z taker);
     orderFields := () |}.

Definition partlyFilled : APIOrder :=
  {| order := mkOrder 200 100;
     metaData := {[ "remainingTakerAssetAmount" := "50" ]} |}.

Definition unfilled : APIOrder :=
  {| order := mkOrder 50 100; metaData := ∅ |}.

Definition blank : APIOrder :=
  {| order := mkOrder 50 100;
     metaData := {[ "remainingTakerAssetAmount" := "" ]} |}.

Definition overdrawn : APIOrder :=
  {| order := mkOrder 200 100;
     metaData := {[ "remainingTakerAssetAmount" := "-5" ]} |}.

Definition spent : APIOrder :=
  {| order := mkOrder 200 100;
     metaData := {[ "remainingTakerAssetAmount" := "0" ]} |}.

Definition annotated : APIOrder :=
  {| order := mkOrder 200 100;
     metaData :=
       {[ "remainingTakerAssetAmount" := "50"; "orderHash" := "0xabc" ]} |}.

Definition page {T} (l : list T) : PaginatedCollection T :=
  {| total := Num (Z.of_nat (length l));
     page := Num 1;
     perPage := Num 100;
     records := l |}.

Definition pairXY : AssetPairsItem :=
  {| assetDataA := {| assetData := "X" |};
     assetDataB := {| assetData := "Y" |} |}.

Definition up : string := "https://sra.example.org/v2".
Definition down : string := "https://down.example.org/v2".

Definition collaborators : @Collaborators types :=
  {| parseNumeric := λ _, BN_NaN;
     isWebUri := λ s,
       String.prefix "http://" s || String.prefix "https://" s;
     isValidOrderProviderRequest := λ r,
       negb (String.eqb (makerAssetData r) "")
       && negb (String.eqb (takerAssetData r) "");
     DEFAULT_PER_PAGE := Num 100;
     orderbook_reply := λ _ url _ _,
       if String.eqb url up
       then inr {| bids := page []; asks := page [partlyFilled; unfilled] |}
       else inl Status500;
     assetPairs_reply := λ _ url _,
       if String.eqb url up then inr (page [pairXY]) else inl Timeout |}.

Definition provider (url : string) : StandardRelayerAPIOrderProvider :=
  {| apiUrl := url; networkId := Num 1; _sraClient := {| client_url := url |} |}.

End Sample.

(** * Properties *)

(** ** Arithmetic of the fill amount *)

Lemma Qzerob_false_of_pos (q : Q) : (0 < Qnum q)%Z → Qzerob q = false.
Proof. unfold Qzerob. intros Hq. apply Z.eqb_neq. lia. Qed.

Lemma Qle_0_num (q : Q) : (0 <= Qnum q)%Z ↔ (0 <= q)%Q.
Proof. unfold Qle. simpl. lia. Qed.

Lemma Qlt_0_num (q : Q) : (0 < Qnum q)%Z ↔ (0 < q)%Q.
Proof. unfold Qlt. simpl. lia. Qed.

(** The maker amount for finite operands and a non-zero taker amount. *)
Lemma fill_finite (a m t : Q) :
  Qzerob t = false →
  integerValue_ROUND_FLOOR (div (multipliedBy (BN a) (BN m)) (BN t))
  = BN (inject_Z (Qfloor (a * m / t))).
Proof.
  intros Ht. unfold multipliedBy, div. rewrite Ht.
  unfold integerValue_ROUND_FLOOR. do 2 f_equal.
  apply Qfloor_comp. rewrite !Qred_correct. reflexivity.
Qed.

Lemma fill_nonneg (a m t : Q) :
  (0 <= a)%Q → (0 <= m)%Q → (0 < t)%Q → (0 <= Qfloor (a * m / t))%Z.
Proof.
  intros Ha Hm Ht.
  change 0%Z with (Qfloor 0). apply Qfloor_resp_le.
  apply Qle_shift_div_l; [exact Ht|].
  rewrite Qmult_0_l. now apply Qmult_le_0_compat.
Qed.

Section Facts.
Context {ext : ExternalTypes} {env : Collaborators}.

Local Abbreviation normalize :=
  _getSignedOrderWithRemainingFillableMakerAssetAmountFromApi.

(** ** The normalizer *)

(** What the normalizer makes of the record at position [i]. *)
Lemma normalize_lookup (apiOrders : list APIOrder) (i : nat) :
  normalize apiOrders !! i
  = apiOrders !! i ≫= λ apiOrder, head (normalize [apiOrder]).
Proof.
  unfold _getSignedOrderWithRemainingFillableMakerAssetAmountFromApi.
  rewrite list_lookup_fmap. now destruct (apiOrders !! i).
Qed.

Lemma getMakerFillAmount_finite (o : SignedOrder) (a m t : Q) :
  makerAssetAmount o = BN m → takerAssetAmount o = BN t → Qzerob t = false →
  getMakerFillAmount o (BN a) = BN (inject_Z (Qfloor (a * m / t))).
Proof.
  intros Hm Ht Hz. unfold getMakerFillAmount. rewrite Hm, Ht.
  now apply fill_finite.
Qed.

(** C7: normalization keeps count and order.  The output is as long as the
    input, its i-th element is what the normalizer makes of the i-th input
    record alone and carries that record's order, and no records give no
    orders. *)
Theorem normalizer_preserves_order_and_count (apiOrders : list APIOrder) :
  length (normalize apiOrders) = length apiOrders
  ∧ (∀ i : nat,
       normalize apiOrders !! i
       = apiOrders !! i ≫= λ apiOrder, head (normalize [apiOrder]))
  ∧ signedOrder <$> normalize apiOrders = order <$> apiOrders
  ∧ normalize [] = [].
Proof.
  split; [|split; [|split]].
  - unfold _getSignedOrderWithRemainingFillableMakerAssetAmountFromApi.
    apply length_fmap.
  - apply normalize_lookup.
  - unfold _getSignedOrderWithRemainingFillableMakerAssetAmountFromApi.
    rewrite <- list_fmap_compose. reflexivity.
  - reflexivity.
Qed.

(** C1: for a list of well-formed records, every order the normalizer
    produces carries a remaining fillable maker amount that is a finite,
    non-negative integer. *)
Theorem normalization_totality (apiOrders : list APIOrder) :
  forallb wellFormed apiOrders = true →
  Forall
    (λ o, ∃ n : Z,
        remainingFillableMakerAssetAmount o = BN (inject_Z n) ∧ (0 <= n)%Z)
    (normalize apiOrders).
Proof.
  unfold _getSignedOrderWithRemainingFillableMakerAssetAmountFromApi.
  induction apiOrders as [|r rs IH]; intros Hwf; [constructor|].
  simpl in Hwf. apply andb_prop in Hwf as [Hr Hrs].
  rewrite fmap_cons. constructor; [clear IH Hrs | exact (IH Hrs)].
  unfold wellFormed in Hr.
  apply andb_prop in Hr as [Hr Hmeta]. apply andb_prop in Hr as [Hm Ht].
  destruct (makerAssetAmount (order r)) as [m| |] eqn:Em; try discriminate.
  destruct (takerAssetAmount (order r)) as [t| |] eqn:Et; try discriminate.
  simpl in Hm, Ht. apply Z.leb_le in Hm. apply Z.ltb_lt in Ht.
  assert (Hfill : ∀ a, (0 <= Qnum a)%Z →
            ∃ n : Z, getMakerFillAmount (order r) (BN a) = BN (inject_Z n)
                     ∧ (0 <= n)%Z).
  { intros a Ha. eexists. split.
    - apply getMakerFillAmount_finite; eauto using Qzerob_false_of_pos.
    - apply fill_nonneg; [apply Qle_0_num| apply Qle_0_num | apply Qlt_0_num];
        assumption. }
  simpl. unfold _get.
  destruct (metaData r !! "remainingTakerAssetAmount") as [str|].
  - destruct (String.eqb str "") eqn:Estr.
    + apply Hfill. lia.
    + simpl in Hmeta.
      destruct (BigNumber_new str) as [a| |]; try discriminate.
      apply Hfill. now apply Z.leb_le.
  - apply Hfill. lia.
Qed.

Lemma Qzerob_false_of_Qeq (t : Q) (z : Z) :
  (t == inject_Z z)%Q → z ≠ 0%Z → Qzerob t = false.
Proof.
  unfold Qeq, Qzerob. simpl. intros Ht Hz. apply Z.eqb_neq. nia.
Qed.

(** What the normalizer makes of a record whose metadata value is used. *)
Lemma normalize_with_metadata (r : APIOrder) (str : string) :
  metaData r !! "remainingTakerAssetAmount" = Some str → str ≠ "" →
  normalize [r]
  = [ {| signedOrder := order r;
         remainingFillableMakerAssetAmount :=
           getMakerFillAmount (order r) (BigNumber_new str) |} ].
Proof.
  intros Hmeta Hne. cbn. unfold _get. rewrite Hmeta.
  apply String.eqb_neq in Hne. now rewrite Hne.
Qed.

(** What the normalizer makes of a record whose metadata value is missing or
    falsy. *)
Lemma normalize_without_metadata (r : APIOrder) :
  metaData r !! "remainingTakerAssetAmount" = None
  ∨ metaData r !! "remainingTakerAssetAmount" = Some "" →
  normalize [r]
  = [ {| signedOrder := order r;
         remainingFillableMakerAssetAmount :=
           getMakerFillAmount (order r) (takerAssetAmount (order r)) |} ].
Proof.
  intros [Hmeta|Hmeta]; cbn; unfold _get; now rewrite Hmeta.
Qed.

(** C2: a record whose metadata says that 50 of the taker asset remain, on an
    order of 200 maker for 100 taker, is given the remaining maker amount
    100 = floor(50 * 200 / 100), not the 200 of the whole order. *)
Theorem metadata_precedence
    (apiOrders : list APIOrder) (i : nat) (r : APIOrder) (m t : Q) :
  apiOrders !! i = Some r →
  metaData r !! "remainingTakerAssetAmount" = Some "50" →
  takerAssetAmount (order r) = BN t → (t == 100)%Q →
  makerAssetAmount (order r) = BN m → (m == 200)%Q →
  normalize apiOrders !! i
  = Some {| signedOrder := order r;
            remainingFillableMakerAssetAmount := BN 100 |}.
Proof.
  intros Hi Hmeta Ht Ht' Hm Hm'.
  rewrite normalize_lookup, Hi. cbn [mbind option_bind].
  rewrite (normalize_with_metadata r "50") by (assumption || discriminate).
  cbn [head]. do 2 f_equal.
  change (BigNumber_new "50") with (BN 50).
  rewrite (getMakerFillAmount_finite _ 50 m t)
    by (try assumption; now apply (Qzerob_false_of_Qeq t 100)).
  do 2 f_equal. rewrite Hm', Ht'. reflexivity.
Qed.

(** C3: without a [remainingTakerAssetAmount] in the metadata the whole taker
    amount of the order counts as remaining; for an order of 50 maker for
    100 taker the remaining maker amount is 50. *)
Theorem default_to_full_amount
    (apiOrders : list APIOrder) (i : nat) (r : APIOrder) :
  apiOrders !! i = Some r →
  metaData r !! "remainingTakerAssetAmount" = None →
  normalize apiOrders !! i
  = Some {| signedOrder := order r;
            remainingFillableMakerAssetAmount :=
              getMakerFillAmount (order r) (takerAssetAmount (order r)) |}
  ∧ (∀ m t : Q,
       takerAssetAmount (order r) = BN t → (t == 100)%Q →
       makerAssetAmount (order r) = BN m → (m == 50)%Q →
       remainingFillableMakerAssetAmount <$> normalize apiOrders !! i
       = Some (BN 50)).
Proof.
  intros Hi Hmeta.
  assert (Hout : normalize apiOrders !! i
    = Some {| signedOrder := order r;
              remainingFillableMakerAssetAmount :=
                getMakerFillAmount (order r) (takerAssetAmount (order r)) |}).
  { rewrite normalize_lookup, Hi. cbn [mbind option_bind].
    rewrite normalize_without_metadata by now left. reflexivity. }
  split; [exact Hout|].
  intros m t Ht Ht' Hm Hm'. rewrite Hout. cbn. f_equal.
  rewrite Ht.
  rewrite (getMakerFillAmount_finite _ t m t)
    by (try assumption; now apply (Qzerob_false_of_Qeq t 100)).
  do 2 f_equal. rewrite Hm', Ht'. reflexivity.
Qed.

(** C10: a [remainingTakerAssetAmount] that is the empty string is falsy and
    so counts as missing: the whole taker amount of the order is used, the
    string is never read as a number, and the outcome is the one for the same
    record without the key. *)
Theorem empty_string_is_absent
    (apiOrders : list APIOrder) (i : nat) (r : APIOrder) :
  apiOrders !! i = Some r →
  metaData r !! "remainingTakerAssetAmount" = Some "" →
  normalize apiOrders !! i
  = Some {| signedOrder := order r;
            remainingFillableMakerAssetAmount :=
              getMakerFillAmount (order r) (takerAssetAmount (order r)) |}
  ∧ normalize [r]
    = normalize
        [ {| order := order r;
             metaData := delete "remainingTakerAssetAmount" (metaData r) |} ].
Proof.
  intros Hi Hmeta. split.
  - rewrite normalize_lookup, Hi. cbn [mbind option_bind].
    rewrite normalize_without_metadata by now right. reflexivity.
  - rewrite !normalize_without_metadata; [reflexivity | left | now right].
    cbn. apply lookup_delete_eq.
Qed.

(** ** The calls to the relayer *)

(** The request [getAvailableMakerAssetDatasAsync] sends. *)
Local Abbreviation makerQuery this takerAssetData :=
  {| request_networkId := networkId this;
     request_perPage := Num 1000;
     request_assetDataA := takerAssetData |}.

(** The request [getAvailableTakerAssetDatasAsync] sends. *)
Local Abbreviation takerQuery this makerAssetData :=
  {| request_networkId := networkId this;
     request_perPage := DEFAULT_PER_PAGE;
     request_assetDataA := makerAssetData |}.

(** The request [getOrdersAsync] sends. *)
Local Abbreviation bookQuery request :=
  {| baseAssetData := makerAssetData request;
     quoteAssetData := takerAssetData request |}.

Local Abbreviation url this := (client_url (_sraClient this)).

(** The side of [item] that is not [query], as both discovery methods pick
    it. *)
Local Abbreviation otherSide query :=
  (λ item : AssetPairsItem,
     if String.eqb (assetData (assetDataA item)) query
     then assetData (assetDataB item)
     else assetData (assetDataA item)).

Lemma getAvailableMakerAssetDatasAsync_run
    (this : StandardRelayerAPIOrderProvider) (takerAssetData : string)
    (tr : list Event) :
  getAvailableMakerAssetDatasAsync this takerAssetData tr
  = (match assetPairs_reply tr (url this) (makerQuery this takerAssetData) with
     | inr response => Return (otherSide takerAssetData <$> records response)
     | inl _ => Throw (Error StandardRelayerApiError)
     end,
     tr ++ [GetAssetPairs (url this) (makerQuery this takerAssetData)]).
Proof.
  unfold getAvailableMakerAssetDatasAsync, mbind, Js_bind, try_catch,
    getAssetPairsAsync.
  now destruct (assetPairs_reply _ _ _).
Qed.

Lemma getAvailableTakerAssetDatasAsync_run
    (this : StandardRelayerAPIOrderProvider) (makerAssetData : string)
    (tr : list Event) :
  getAvailableTakerAssetDatasAsync this makerAssetData tr
  = (match assetPairs_reply tr (url this) (takerQuery this makerAssetData) with
     | inr response => Return (otherSide makerAssetData <$> records response)
     | inl _ => Throw (Error StandardRelayerApiError)
     end,
     tr ++ [GetAssetPairs (url this) (takerQuery this makerAssetData)]).
Proof.
  unfold getAvailableTakerAssetDatasAsync, mbind, Js_bind, try_catch,
    getAssetPairsAsync.
  now destruct (assetPairs_reply _ _ _).
Qed.

Lemma getOrdersAsync_run
    (this : StandardRelayerAPIOrderProvider) (request : OrderProviderRequest)
    (tr : list Event) :
  isValidOrderProviderRequest request = true →
  getOrdersAsync this request tr
  = (match
       orderbook_reply tr (url this) (bookQuery request)
         {| opts_networkId := networkId this |}
     with
     | inr orderbook =>
         Return {| orders := normalize (records (asks orderbook)) |}
     | inl _ => Throw (Error StandardRelayerApiError)
     end,
     tr ++ [GetOrderbook (url this) (bookQuery request)
              {| opts_networkId := networkId this |}]).
Proof.
  intros Hvalid.
  unfold getOrdersAsync, assert_isValidOrderProviderRequest, assert_that.
  rewrite Hvalid.
  unfold mbind, Js_bind, try_catch, getOrderbookAsync, mret, Js_ret.
  now destruct (orderbook_reply _ _ _ _).
Qed.

Lemma otherSide_lookup (query : string) (l : list AssetPairsItem) (i : nat) :
  (otherSide query <$> l) !! i = otherSide query <$> l !! i.
Proof. apply list_lookup_fmap. Qed.

(** Runs a discovery call against the reply [Hreply] and reads the entry made
    from the item that [Hi] finds in the page. *)
Local Ltac discover Hreply Hi :=
  (rewrite getAvailableMakerAssetDatasAsync_run
   || rewrite getAvailableTakerAssetDatasAsync_run);
  rewrite Hreply; eexists; (split; [reflexivity|]);
  rewrite otherSide_lookup, Hi; cbn [fmap option_fmap option_map];
  f_equal; assumption.

(** C4: whatever makes the call to the relayer fail, the order-book lookup
    and both asset-pair lookups throw the one error
    [SwapQuoterError.StandardRelayerApiError], which carries nothing of the
    cause. *)
Theorem uniform_failure_mapping
    (this : StandardRelayerAPIOrderProvider) (tr : list Event)
    (cause : TransportCause) :
  (∀ request : OrderProviderRequest,
     isValidOrderProviderRequest request = true →
     orderbook_reply tr (url this) (bookQuery request)
       {| opts_networkId := networkId this |} = inl cause →
     (getOrdersAsync this request tr).1 = Throw (Error StandardRelayerApiError))
  ∧ (∀ takerAssetData : string,
       assetPairs_reply tr (url this) (makerQuery this takerAssetData)
       = inl cause →
       (getAvailableMakerAssetDatasAsync this takerAssetData tr).1
       = Throw (Error StandardRelayerApiError))
  ∧ (∀ makerAssetData : string,
       assetPairs_reply tr (url this) (takerQuery this makerAssetData)
       = inl cause →
       (getAvailableTakerAssetDatasAsync this makerAssetData tr).1
       = Throw (Error StandardRelayerApiError)).
Proof.
  split; [|split].
  - intros request Hvalid Hfail.
    rewrite getOrdersAsync_run by assumption. now rewrite Hfail.
  - intros a Hfail. rewrite getAvailableMakerAssetDatasAsync_run.
    now rewrite Hfail.
  - intros a Hfail. rewrite getAvailableTakerAssetDatasAsync_run.
    now rewrite Hfail.
Qed.

(** C5: when the page the relayer returns holds, at position [i], a pair
    with X on side A and Y on side B, X and Y different, then asking for X
    gives Y at position [i] of the result and asking for Y gives X there, in
    both directions of discovery. *)
Theorem pair_symmetry
    (this : StandardRelayerAPIOrderProvider) (tr : list Event)
    (response : AssetPairsResponse) (i : nat) (item : AssetPairsItem)
    (X Y : string) :
  X ≠ Y →
  assetData (assetDataA item) = X → assetData (assetDataB item) = Y →
  records response !! i = Some item →
  (assetPairs_reply tr (url this) (makerQuery this X) = inr response →
   ∃ l, (getAvailableMakerAssetDatasAsync this X tr).1 = Return l
        ∧ l !! i = Some Y)
  ∧ (assetPairs_reply tr (url this) (makerQuery this Y) = inr response →
     ∃ l, (getAvailableMakerAssetDatasAsync this Y tr).1 = Return l
          ∧ l !! i = Some X)
  ∧ (assetPairs_reply tr (url this) (takerQuery this X) = inr response →
     ∃ l, (getAvailableTakerAssetDatasAsync this X tr).1 = Return l
          ∧ l !! i = Some Y)
  ∧ (assetPairs_reply tr (url this) (takerQuery this Y) = inr response →
     ∃ l, (getAvailableTakerAssetDatasAsync this Y tr).1 = Return l
          ∧ l !! i = Some X).
Proof.
  intros Hne HA HB Hi.
  assert (HX : otherSide X item = Y) by (rewrite HA, String.eqb_refl; exact HB).
  assert (HY : otherSide Y item = X).
  { rewrite HA. apply String.eqb_neq in Hne. now rewrite Hne. }
  repeat split; intros Hreply; discover Hreply Hi.
Qed.

(** C6: a pair of the returned page with the queried identifier on neither
    side does not make discovery fail; the result has side A's identifier at
    that pair's position. *)
Theorem neither_side_falls_back_to_A
    (this : StandardRelayerAPIOrderProvider) (tr : list Event)
    (response : AssetPairsResponse) (i : nat) (item : AssetPairsItem)
    (query : string) :
  assetData (assetDataA item) ≠ query →
  assetData (assetDataB item) ≠ query →
  records response !! i = Some item →
  (assetPairs_reply tr (url this) (makerQuery this query) = inr response →
   ∃ l, (getAvailableMakerAssetDatasAsync this query tr).1 = Return l
        ∧ l !! i = Some (assetData (assetDataA item)))
  ∧ (assetPairs_reply tr (url this) (takerQuery this query) = inr response →
     ∃ l, (getAvailableTakerAssetDatasAsync this query tr).1 = Return l
          ∧ l !! i = Some (assetData (assetDataA item))).
Proof.
  intros HA _ Hi.
  assert (Hside : otherSide query item = assetData (assetDataA item)).
  { apply String.eqb_neq in HA. now rewrite HA. }
  split; intros Hreply; discover Hreply Hi.
Qed.

(** C8: discovery of maker assets sends exactly one asset-pairs request, with
    [perPage] 1000, and discovery of taker assets exactly one with
    [constants.DEFAULT_PER_PAGE]; nothing else happens, whether the relayer
    answers or fails, and an answer is returned entry by entry, from that one
    page. *)
Theorem page_size_contract
    (this : StandardRelayerAPIOrderProvider) (query : string)
    (tr : list Event) :
  ((getAvailableMakerAssetDatasAsync this query tr).2
   = tr ++ [GetAssetPairs (url this)
              {| request_networkId := networkId this;
                 request_perPage := Num 1000;
                 request_assetDataA := query |}])
  ∧ ((getAvailableTakerAssetDatasAsync this query tr).2
     = tr ++ [GetAssetPairs (url this)
                {| request_networkId := networkId this;
                   request_perPage := DEFAULT_PER_PAGE;
                   request_assetDataA := query |}])
  ∧ match
      (getAvailableMakerAssetDatasAsync this query tr).1,
      assetPairs_reply tr (url this) (makerQuery this query)
    with
    | Return l, inr response => length l = length (records response)
    | Throw _, inl _ => True
    | _, _ => False
    end
  ∧ match
      (getAvailableTakerAssetDatasAsync this query tr).1,
      assetPairs_reply tr (url this) (takerQuery this query)
    with
    | Return l, inr response => length l = length (records response)
    | Throw _, inl _ => True
    | _, _ => False
    end.
Proof.
  rewrite getAvailableMakerAssetDatasAsync_run,
    getAvailableTakerAssetDatasAsync_run.
  cbn [fst snd]. repeat split.
  - destruct (assetPairs_reply _ _ (makerQuery this query));
      [exact I | apply length_fmap].
  - destruct (assetPairs_reply _ _ (takerQuery this query));
      [exact I | apply length_fmap].
Qed.

(** C9: construction fails in an assertion, with no client created, when the
    url is not a web uri or the network id is not a finite number; otherwise
    it stores both and creates one client, bound to the url. *)
Theorem construction_validation
    (apiUrl : string) (networkId : number) (tr : list Event) :
  (isWebUri apiUrl = false ∨ isFinite networkId = false →
   ∃ variableName : string,
     constructor apiUrl networkId tr = (Throw (AssertionError variableName), tr))
  ∧ (isWebUri apiUrl = true → isFinite networkId = true →
     constructor apiUrl networkId tr
     = (Return {| apiUrl := apiUrl;
                  networkId := networkId;
                  _sraClient := {| client_url := apiUrl |} |},
        tr ++ [NewHttpClient apiUrl])).
Proof.
  unfold constructor, assert_isWebUri, assert_isNumber, assert_that,
    mbind, Js_bind, HttpClient_new, mret, Js_ret, throw.
  split.
  - intros Hbad.
    destruct (isWebUri apiUrl); [|now exists "apiUrl"].
    destruct (isFinite networkId); [|now exists "networkId"].
    destruct Hbad; discriminate.
  - intros -> ->. reflexivity.
Qed.

(** ** Further properties of the normalizer *)

Lemma Qzerob_false_iff (t : Q) : Qzerob t = false ↔ ¬ (t == 0)%Q.
Proof. unfold Qzerob, Qeq. simpl. rewrite Z.eqb_neq. lia. Qed.

Lemma read_decimal_nonempty (str : string) (q : Q) :
  read_decimal str = Some q → str ≠ "".
Proof. intros Hread ->. discriminate. Qed.

Lemma BigNumber_new_decimal (str : string) (q : Q) :
  (N.of_nat (String.length str) <= MAX_EXP)%N →
  read_decimal str = Some q → BigNumber_new str = BN q.
Proof.
  intros Hlen Hread. unfold BigNumber_new.
  apply N.leb_le in Hlen. now rewrite Hlen, Hread.
Qed.

(** The normalizer reads nothing of a record but its order and the value
    under [remainingTakerAssetAmount]: records that agree on these two are
    normalized alike, whatever else their metadata holds. *)
Theorem normalizer_ignores_other_metadata (r1 r2 : APIOrder) :
  order r1 = order r2 →
  metaData r1 !! "remainingTakerAssetAmount"
  = metaData r2 !! "remainingTakerAssetAmount" →
  normalize [r1] = normalize [r2].
Proof.
  intros Horder Hmeta. cbn. unfold _get. now rewrite Horder, Hmeta.
Qed.

(** A metadata value that is a plain decimal literal is a non-empty string,
    hence truthy, and is the remaining taker amount, also when it is the
    literal 0: the maker amount is floor(q * maker / taker) for its value
    q. *)
Theorem decimal_metadata_is_used (r : APIOrder) (str : string) (q m t : Q) :
  metaData r !! "remainingTakerAssetAmount" = Some str →
  (N.of_nat (String.length str) <= MAX_EXP)%N →
  read_decimal str = Some q →
  makerAssetAmount (order r) = BN m →
  takerAssetAmount (order r) = BN t → ¬ (t == 0)%Q →
  normalize [r]
  = [ {| signedOrder := order r;
         remainingFillableMakerAssetAmount :=
           BN (inject_Z (Qfloor (q * m / t))) |} ].
Proof.
  intros Hmeta Hlen Hread Hm Ht Hnz.
  rewrite (normalize_with_metadata r str)
    by eauto using read_decimal_nonempty.
  rewrite (BigNumber_new_decimal str q) by assumption.
  rewrite (getMakerFillAmount_finite _ q m t)
    by (try assumption; now apply Qzerob_false_iff).
  reflexivity.
Qed.

(** When the metadata reports a remaining taker amount between zero and the
    order's taker amount, the remaining maker amount lies between zero and
    the order's maker amount. *)
Theorem remaining_amount_within_order
    (r : APIOrder) (str : string) (a m t : Q) :
  metaData r !! "remainingTakerAssetAmount" = Some str → str ≠ "" →
  BigNumber_new str = BN a →
  makerAssetAmount (order r) = BN m →
  takerAssetAmount (order r) = BN t →
  (0 <= a)%Q → (a <= t)%Q → (0 < t)%Q → (0 <= m)%Q →
  ∃ n : Z,
    normalize [r]
    = [ {| signedOrder := order r;
           remainingFillableMakerAssetAmount := BN (inject_Z n) |} ]
    ∧ (0 <= n)%Z ∧ (inject_Z n <= m)%Q.
Proof.
  intros Hmeta Hne Hnew Hm Ht Ha Hat Htpos Hmpos.
  exists (Qfloor (a * m / t)). split; [|split].
  - rewrite (normalize_with_metadata r str) by assumption.
    rewrite Hnew.
    rewrite (getMakerFillAmount_finite _ a m t)
      by (try assumption; apply Qzerob_false_of_pos; now apply Qlt_0_num).
    reflexivity.
  - now apply fill_nonneg.
  - eapply Qle_trans; [apply Qfloor_le|].
    apply Qle_shift_div_r; [exact Htpos|].
    rewrite (Qmult_comm m t). apply Qmult_le_compat_r; assumption.
Qed.

(** An order without a usable [remainingTakerAssetAmount], with a whole
    maker amount and a taker amount other than zero, is fillable in full:
    its remaining maker amount is its maker amount. *)
Theorem unfilled_order_is_fillable_in_full
    (r : APIOrder) (k : Z) (m t : Q) :
  metaData r !! "remainingTakerAssetAmount" = None
  ∨ metaData r !! "remainingTakerAssetAmount" = Some "" →
  makerAssetAmount (order r) = BN m → (m == inject_Z k)%Q →
  takerAssetAmount (order r) = BN t → ¬ (t == 0)%Q →
  normalize [r]
  = [ {| signedOrder := order r;
         remainingFillableMakerAssetAmount := BN (inject_Z k) |} ].
Proof.
  intros Hmeta Hm Hk Ht Hnz.
  rewrite normalize_without_metadata by assumption.
  rewrite Ht.
  rewrite (getMakerFillAmount_finite _ t m t)
    by (try assumption; now apply Qzerob_false_iff).
  do 4 f_equal.
  rewrite (Qfloor_comp (t * m / t) (inject_Z k)); [apply Qfloor_Z|].
  rewrite Qmult_comm, Qdiv_mult_l by assumption. exact Hk.
Qed.

(** ** Further properties of the methods *)

Lemma Js_bind_return {A B} (m : Js A) (k : A → Js B) (a : A)
    (tr tr' : list Event) :
  m tr = (Return a, tr') → (m ≫= k) tr = k a tr'.
Proof. intros Hm. unfold mbind, Js_bind. now rewrite Hm. Qed.

Lemma constructor_run (apiUrl : string) (networkId : number) (tr : list Event) :
  isWebUri apiUrl = true → isFinite networkId = true →
  constructor apiUrl networkId tr
  = (Return {| apiUrl := apiUrl;
               networkId := networkId;
               _sraClient := {| client_url := apiUrl |} |},
     tr ++ [NewHttpClient apiUrl]).
Proof.
  unfold constructor, assert_isWebUri, assert_isNumber, assert_that,
    mbind, Js_bind, HttpClient_new, mret, Js_ret.
  now intros -> ->.
Qed.

(** A request that fails [assert.isValidOrderProviderRequest] is refused with
    the assertion on [orderProviderRequest] before anything is sent. *)
Theorem getOrdersAsync_refuses_invalid_request
    (this : StandardRelayerAPIOrderProvider) (request : OrderProviderRequest)
    (tr : list Event) :
  isValidOrderProviderRequest request = false →
  getOrdersAsync this request tr
  = (Throw (AssertionError "orderProviderRequest"), tr).
Proof.
  intros Hbad.
  unfold getOrdersAsync, assert_isValidOrderProviderRequest, assert_that.
  now rewrite Hbad.
Qed.

(** For a valid request [getOrdersAsync] sends exactly one order-book
    request, to the client's url, with the maker asset as base asset, the
    taker asset as quote asset and the provider's network id, whether the
    relayer answers or fails. *)
Theorem getOrdersAsync_sends_one_request
    (this : StandardRelayerAPIOrderProvider) (request : OrderProviderRequest)
    (tr : list Event) :
  isValidOrderProviderRequest request = true →
  (getOrdersAsync this request tr).2
  = tr ++ [GetOrderbook (url this)
             {| baseAssetData := makerAssetData request;
                quoteAssetData := takerAssetData request |}
             {| opts_networkId := networkId this |}].
Proof.
  intros Hvalid. now rewrite getOrdersAsync_run.
Qed.

(** When the relayer answers a valid request, the orders returned are the
    normalized records of the asks, one per record and in their order; the
    bids and the paging fields of the answer play no part. *)
Theorem getOrdersAsync_returns_the_asks
    (this : StandardRelayerAPIOrderProvider) (request : OrderProviderRequest)
    (tr : list Event) (orderbook : OrderbookResponse) :
  isValidOrderProviderRequest request = true →
  orderbook_reply tr (url this) (bookQuery request)
    {| opts_networkId := networkId this |} = inr orderbook →
  ∃ response : OrderProviderResponse,
    (getOrdersAsync this request tr).1 = Return response
    ∧ orders response = normalize (records (asks orderbook))
    ∧ length (orders response) = length (records (asks orderbook))
    ∧ signedOrder <$> orders response = order <$> records (asks orderbook).
Proof.
  intros Hvalid Hreply. rewrite getOrdersAsync_run by assumption.
  rewrite Hreply. eexists. split; [reflexivity|]. cbn [orders].
  unfold _getSignedOrderWithRemainingFillableMakerAssetAmountFromApi.
  split; [reflexivity|]. split; [apply length_fmap|].
  now rewrite <- list_fmap_compose.
Qed.

(** The constructor checks the url first: a url that is not a web uri is
    reported as [apiUrl] whatever the network id is, and a network id that
    is not finite is reported as [networkId] only for a url that passed. *)
Theorem constructor_names_the_first_failing_argument
    (apiUrl : string) (networkId : number) (tr : list Event) :
  (isWebUri apiUrl = false →
   constructor apiUrl networkId tr = (Throw (AssertionError "apiUrl"), tr))
  ∧ (isWebUri apiUrl = true → isFinite networkId = false →
     constructor apiUrl networkId tr
     = (Throw (AssertionError "networkId"), tr)).
Proof.
  unfold constructor, assert_isWebUri, assert_isNumber, assert_that,
    mbind, Js_bind, mret, Js_ret, throw.
  split; [now intros -> | now intros -> ->].
Qed.

(** A provider fresh from the constructor sends every request to the url it
    was constructed with and under the network id it was given: after the
    creation of its client, each method adds its one request. *)
Theorem constructed_provider_talks_to_its_url
    (apiUrl : string) (networkId : number) (tr : list Event) :
  isWebUri apiUrl = true → isFinite networkId = true →
  (∀ request : OrderProviderRequest,
     isValidOrderProviderRequest request = true →
     ((constructor apiUrl networkId
         ≫= λ this, getOrdersAsync this request) tr).2
     = tr ++ [NewHttpClient apiUrl;
              GetOrderbook apiUrl
                {| baseAssetData := makerAssetData request;
                   quoteAssetData := takerAssetData request |}
                {| opts_networkId := networkId |}])
  ∧ (∀ query : string,
       ((constructor apiUrl networkId
           ≫= λ this, getAvailableMakerAssetDatasAsync this query) tr).2
       = tr ++ [NewHttpClient apiUrl;
                GetAssetPairs apiUrl
                  {| request_networkId := networkId;
                     request_perPage := Num 1000;
                     request_assetDataA := query |}])
  ∧ (∀ query : string,
       ((constructor apiUrl networkId
           ≫= λ this, getAvailableTakerAssetDatasAsync this query) tr).2
       = tr ++ [NewHttpClient apiUrl;
                GetAssetPairs apiUrl
                  {| request_networkId := networkId;
                     request_perPage := DEFAULT_PER_PAGE;
                     request_assetDataA := query |}]).
Proof.
  intros Huri Hnum.
  pose proof (constructor_run apiUrl networkId tr Huri Hnum) as Hnew.
  split; [|split].
  - intros request Hvalid. rewrite (Js_bind_return _ _ _ _ _ Hnew).
    rewrite getOrdersAsync_run by assumption. cbn. now rewrite <- app_assoc.
  - intros query. rewrite (Js_bind_return _ _ _ _ _ Hnew).
    rewrite getAvailableMakerAssetDatasAsync_run. cbn.
    now rewrite <- app_assoc.
  - intros query. rewrite (Js_bind_return _ _ _ _ _ Hnew).
    rewrite getAvailableTakerAssetDatasAsync_run. cbn.
    now rewrite <- app_assoc.
Qed.

Lemma otherSide_cases (query : string) (item : AssetPairsItem) :
  (otherSide query item = assetData (assetDataA item)
   ∨ otherSide query item = assetData (assetDataB item))
  ∧ (otherSide query item = query
     ↔ assetData (assetDataA item) = query
       ∧ assetData (assetDataB item) = query).
Proof.
  cbn beta. destruct (String.eqb_spec (assetData (assetDataA item)) query)
    as [HA|HA].
  - split; [now right|]. split; [now intros HB | now intros [_ HB]].
  - split; [now left|]. split; [now intros HA' | now intros [HA' _]].
Qed.

(** Every entry of a discovery result is one of the two sides of the pair at
    its position, and it is the queried identifier itself only for a pair
    that has it on both sides. *)
Theorem discovery_entries_are_sides
    (this : StandardRelayerAPIOrderProvider) (tr : list Event)
    (response : AssetPairsResponse) (query : string) :
  (assetPairs_reply tr (url this) (makerQuery this query) = inr response →
   ∃ l, (getAvailableMakerAssetDatasAsync this query tr).1 = Return l
        ∧ ∀ (i : nat) (item : AssetPairsItem),
            records response !! i = Some item →
            ∃ s, l !! i = Some s
                 ∧ (s = assetData (assetDataA item)
                    ∨ s = assetData (assetDataB item))
                 ∧ (s = query
                    ↔ assetData (assetDataA item) = query
                      ∧ assetData (assetDataB item) = query))
  ∧ (assetPairs_reply tr (url this) (takerQuery this query) = inr response →
     ∃ l, (getAvailableTakerAssetDatasAsync this query tr).1 = Return l
          ∧ ∀ (i : nat) (item : AssetPairsItem),
              records response !! i = Some item →
              ∃ s, l !! i = Some s
                   ∧ (s = assetData (assetDataA item)
                      ∨ s = assetData (assetDataB item))
                   ∧ (s = query
                      ↔ assetData (assetDataA item) = query
                        ∧ assetData (assetDataB item) = query)).
Proof.
  split; intros Hreply;
    (rewrite getAvailableMakerAssetDatasAsync_run
     || rewrite getAvailableTakerAssetDatasAsync_run);
    rewrite Hreply; eexists; (split; [reflexivity|]);
    intros i item Hi; eexists;
    (split; [rewrite otherSide_lookup, Hi; reflexivity|]);
    apply otherSide_cases.
Qed.

(** The two directions of discovery differ in the page size they ask for and
    in nothing else: when the relayer answers both requests alike, both
    methods return the same. *)
Theorem discovery_directions_agree
    (this : StandardRelayerAPIOrderProvider) (tr : list Event)
    (query : string) :
  assetPairs_reply tr (url this) (makerQuery this query)
  = assetPairs_reply tr (url this) (takerQuery this query) →
  (getAvailableMakerAssetDatasAsync this query tr).1
  = (getAvailableTakerAssetDatasAsync this query tr).1.
Proof.
  intros Hsame.
  rewrite getAvailableMakerAssetDatasAsync_run,
    getAvailableTakerAssetDatasAsync_run.
  cbn [fst]. now rewrite Hsame.
Qed.

(** Nothing is kept between calls: a second discovery call after a first
    that succeeded sends the same request again, and returns what the
    relayer makes of it then. *)
Theorem discovery_asks_again
    (this : StandardRelayerAPIOrderProvider) (tr : list Event)
    (response : AssetPairsResponse) (query : string) :
  assetPairs_reply tr (url this) (makerQuery this query) = inr response →
  (getAvailableMakerAssetDatasAsync this query
     ≫= λ _, getAvailableMakerAssetDatasAsync this query) tr
  = (match
       assetPairs_reply
         (tr ++ [GetAssetPairs (url this) (makerQuery this query)])
         (url this) (makerQuery this query)
     with
     | inr again => Return (otherSide query <$> records again)
     | inl _ => Throw (Error StandardRelayerApiError)
     end,
     tr ++ [GetAssetPairs (url this) (makerQuery this query);
            GetAssetPairs (url this) (makerQuery this query)]).
Proof.
  intros Hreply.
  erewrite Js_bind_return
    by (rewrite getAvailableMakerAssetDatasAsync_run, Hreply; reflexivity).
  rewrite getAvailableMakerAssetDatasAsync_run. now rewrite <- app_assoc.
Qed.

End Facts.

(** ** The theorems at work on the concrete relayer *)

Section Witnesses.
Import Sample.
#[local] Existing Instance types.
#[local] Existing Instance collaborators.

Local Abbreviation normalize :=
  _getSignedOrderWithRemainingFillableMakerAssetAmountFromApi.

Lemma normalization_totality_witness :
  Forall
    (λ o, ∃ n : Z,
        remainingFillableMakerAssetAmount o = BN (inject_Z n) ∧ (0 <= n)%Z)
    (normalize [partlyFilled; unfilled; blank]).
Proof.
  apply (normalization_totality [partlyFilled; unfilled; blank]).
  vm_compute. reflexivity.
Defined.

Lemma metadata_precedence_witness :
  normalize [unfilled; partlyFilled] !! 1%nat
  = Some {| signedOrder := mkOrder 200 100;
            remainingFillableMakerAssetAmount := BN 100 |}.
Proof.
  apply (metadata_precedence [unfilled; partlyFilled] 1 partlyFilled 200 100);
    vm_compute; reflexivity.
Defined.

Lemma default_to_full_amount_witness :
  remainingFillableMakerAssetAmount <$> normalize [unfilled] !! 0%nat
  = Some (BN 50).
Proof.
  apply (proj2 (default_to_full_amount [unfilled] 0 unfilled
                  ltac:(reflexivity) ltac:(vm_compute; reflexivity))
           50%Q 100%Q);
    vm_compute; reflexivity.
Defined.

Lemma empty_string_is_absent_witness :
  normalize [blank] !! 0%nat
  = Some {| signedOrder := mkOrder 50 100;
            remainingFillableMakerAssetAmount :=
              getMakerFillAmount (mkOrder 50 100) (BN 100) |}
  ∧ normalize [blank] = normalize [unfilled].
Proof.
  apply (empty_string_is_absent [blank] 0 blank); vm_compute; reflexivity.
Defined.

Lemma uniform_failure_mapping_witness :
  (getOrdersAsync (provider down)
     {| makerAssetData := "X"; takerAssetData := "Y" |} []).1
  = Throw (Error StandardRelayerApiError)
  ∧ (getAvailableMakerAssetDatasAsync (provider down) "X" []).1
    = Throw (Error StandardRelayerApiError)
  ∧ (getAvailableTakerAssetDatasAsync (provider down) "X" []).1
    = Throw (Error StandardRelayerApiError).
Proof.
  split; [|split].
  - apply (proj1 (uniform_failure_mapping (ext:=types) (provider down) [] Status500));
      vm_compute; reflexivity.
  - apply (proj1 (proj2 (uniform_failure_mapping (ext:=types) (provider down) [] Timeout)));
      vm_compute; reflexivity.
  - apply (proj2 (proj2 (uniform_failure_mapping (ext:=types) (provider down) [] Timeout)));
      vm_compute; reflexivity.
Defined.

Lemma pair_symmetry_witness :
  (∃ l, (getAvailableMakerAssetDatasAsync (provider up) "X" []).1 = Return l
        ∧ l !! 0%nat = Some "Y")
  ∧ (∃ l, (getAvailableMakerAssetDatasAsync (provider up) "Y" []).1 = Return l
          ∧ l !! 0%nat = Some "X")
  ∧ (∃ l, (getAvailableTakerAssetDatasAsync (provider up) "X" []).1 = Return l
          ∧ l !! 0%nat = Some "Y")
  ∧ (∃ l, (getAvailableTakerAssetDatasAsync (provider up) "Y" []).1 = Return l
          ∧ l !! 0%nat = Some "X").
Proof.
  assert (Hne : "X" ≠ "Y") by discriminate.
  pose proof
    (pair_symmetry (provider up) [] (page [pairXY]) 0 pairXY "X" "Y"
       Hne eq_refl eq_refl eq_refl) as (H1 & H2 & H3 & H4).
  repeat split; [apply H1 | apply H2 | apply H3 | apply H4];
    vm_compute; reflexivity.
Defined.

Lemma neither_side_falls_back_to_A_witness :
  (∃ l, (getAvailableMakerAssetDatasAsync (provider up) "Z" []).1 = Return l
        ∧ l !! 0%nat = Some "X")
  ∧ (∃ l, (getAvailableTakerAssetDatasAsync (provider up) "Z" []).1 = Return l
          ∧ l !! 0%nat = Some "X").
Proof.
  assert (HA : "X" ≠ "Z") by discriminate.
  assert (HB : "Y" ≠ "Z") by discriminate.
  pose proof
    (neither_side_falls_back_to_A (provider up) [] (page [pairXY]) 0 pairXY
       "Z" HA HB eq_refl) as (H1 & H2).
  split; [apply H1 | apply H2]; vm_compute; reflexivity.
Defined.

Lemma construction_validation_witness :
  (∃ variableName : string,
     constructor "not a url" (Num 1) []
     = (Throw (AssertionError variableName), []))
  ∧ (∃ variableName : string,
       constructor up NaN [] = (Throw (AssertionError variableName), []))
  ∧ constructor up (Num 1) [] = (Return (provider up), [NewHttpClient up]).
Proof.
  split; [|split].
  - apply (proj1 (construction_validation "not a url" (Num 1) [])).
    left. vm_compute. reflexivity.
  - apply (proj1 (construction_validation up NaN [])).
    right. vm_compute. reflexivity.
  - apply (proj2 (construction_validation up (Num 1) []));
      vm_compute; reflexivity.
Defined.

Local Ltac q_arith := unfold Qle, Qlt, Qeq; simpl; lia.

Lemma normalizer_ignores_other_metadata_witness :
  normalize [annotated] = normalize [partlyFilled].
Proof.
  apply (normalizer_ignores_other_metadata annotated partlyFilled);
    vm_compute; reflexivity.
Defined.

Lemma decimal_metadata_is_used_witness :
  normalize [spent]
  = [ {| signedOrder := mkOrder 200 100;
         remainingFillableMakerAssetAmount := BN 0 |} ].
Proof.
  apply (decimal_metadata_is_used spent "0" 0 200 100);
    try (vm_compute; reflexivity); [vm_compute; discriminate | q_arith].
Defined.

Lemma remaining_amount_within_order_witness :
  ∃ n : Z,
    normalize [partlyFilled]
    = [ {| signedOrder := mkOrder 200 100;
           remainingFillableMakerAssetAmount := BN (inject_Z n) |} ]
    ∧ (0 <= n)%Z ∧ (inject_Z n <= 200)%Q.
Proof.
  apply (remaining_amount_within_order partlyFilled "50" 50 200 100);
    try (vm_compute; reflexivity); try q_arith; discriminate.
Defined.

Lemma unfilled_order_is_fillable_in_full_witness :
  normalize [unfilled]
  = [ {| signedOrder := mkOrder 50 100;
         remainingFillableMakerAssetAmount := BN (inject_Z 50) |} ].
Proof.
  apply (unfilled_order_is_fillable_in_full unfilled 50 50 100);
    try (vm_compute; reflexivity); [left; vm_compute; reflexivity | q_arith].
Defined.

Lemma getOrdersAsync_refuses_invalid_request_witness :
  getOrdersAsync (provider up)
    {| makerAssetData := ""; takerAssetData := "Y" |} []
  = (Throw (AssertionError "orderProviderRequest"), []).
Proof.
  apply getOrdersAsync_refuses_invalid_request. vm_compute. reflexivity.
Defined.

Lemma getOrdersAsync_sends_one_request_witness :
  (getOrdersAsync (provider down)
     {| makerAssetData := "X"; takerAssetData := "Y" |} []).2
  = [GetOrderbook down
       {| baseAssetData := "X"; quoteAssetData := "Y" |}
       {| opts_networkId := Num 1 |}].
Proof.
  apply (getOrdersAsync_sends_one_request (provider down)
           {| makerAssetData := "X"; takerAssetData := "Y" |} []).
  vm_compute. reflexivity.
Defined.

Lemma getOrdersAsync_returns_the_asks_witness :
  ∃ response : OrderProviderResponse,
    (getOrdersAsync (provider up)
       {| makerAssetData := "X"; takerAssetData := "Y" |} []).1
    = Return response
    ∧ orders response = normalize [partlyFilled; unfilled]
    ∧ length (orders response) = 2%nat
    ∧ signedOrder <$> orders response = [mkOrder 200 100; mkOrder 50 100].
Proof.
  apply (getOrdersAsync_returns_the_asks (provider up)
           {| makerAssetData := "X"; takerAssetData := "Y" |} []
           {| bids := page []; asks := page [partlyFilled; unfilled] |});
    vm_compute; reflexivity.
Defined.

Lemma constructor_names_the_first_failing_argument_witness :
  constructor "not a url" NaN [] = (Throw (AssertionError "apiUrl"), [])
  ∧ constructor up NaN [] = (Throw (AssertionError "networkId"), []).
Proof.
  split.
  - apply (proj1 (constructor_names_the_first_failing_argument
                    "not a url" NaN [])).
    vm_compute. reflexivity.
  - apply (proj2 (constructor_names_the_first_failing_argument up NaN []));
      vm_compute; reflexivity.
Defined.

Lemma constructed_provider_talks_to_its_url_witness :
  ((constructor up (Num 1)
      ≫= λ this, getAvailableMakerAssetDatasAsync this "X") []).2
  = [NewHttpClient up;
     GetAssetPairs up
       {| request_networkId := Num 1;
          request_perPage := Num 1000;
          request_assetDataA := "X" |}].
Proof.
  refine (proj1 (proj2 (constructed_provider_talks_to_its_url
                          (env:=collaborators) up (Num 1) [] _ _)) "X");
    vm_compute; reflexivity.
Defined.

Lemma discovery_entries_are_sides_witness :
  ∃ l, (getAvailableMakerAssetDatasAsync (provider up) "X" []).1 = Return l
       ∧ ∀ (i : nat) (item : AssetPairsItem),
           [pairXY] !! i = Some item →
           ∃ s, l !! i = Some s
                ∧ (s = assetData (assetDataA item)
                   ∨ s = assetData (assetDataB item))
                ∧ (s = "X"
                   ↔ assetData (assetDataA item) = "X"
                     ∧ assetData (assetDataB item) = "X").
Proof.
  apply (proj1 (discovery_entries_are_sides (provider up) [] (page [pairXY])
                  "X")).
  vm_compute. reflexivity.
Defined.

Lemma discovery_directions_agree_witness :
  (getAvailableMakerAssetDatasAsync (provider up) "X" []).1
  = (getAvailableTakerAssetDatasAsync (provider up) "X" []).1.
Proof.
  apply discovery_directions_agree. vm_compute. reflexivity.
Defined.

Lemma discovery_asks_again_witness :
  (getAvailableMakerAssetDatasAsync (provider up) "X"
     ≫= λ _, getAvailableMakerAssetDatasAsync (provider up) "X") []
  = (Return ["Y"],
     [GetAssetPairs up
        {| request_networkId := Num 1;
           request_perPage := Num 1000;
           request_assetDataA := "X" |};
      GetAssetPairs up
        {| request_networkId := Num 1;
           request_perPage := Num 1000;
           request_assetDataA := "X" |}]).
Proof.
  rewrite (discovery_asks_again (provider up) [] (page [pairXY]) "X")
    by (vm_compute; reflexivity).
  vm_compute. reflexivity.
Defined.

(** Records that are not well formed show what well-formedness is for: a
    negative remaining taker amount gives a negative maker amount, and a
    taker amount of zero gives no number. *)
Example overdrawn_record_gives_negative_amount :
  remainingFillableMakerAssetAmount <$> normalize [overdrawn]
  = [BN (-10)].
Proof. vm_compute. reflexivity. Qed.

Example zero_taker_amount_gives_NaN :
  remainingFillableMakerAssetAmount
    <$> normalize [ {| order := mkOrder 0 0; metaData := ∅ |} ]
  = [BN_NaN].
Proof. vm_compute. reflexivity. Qed.

End Witnesses.
